(** * PromptVault Python SDK: a shallow embedding of [promptvault/__init__.py]

    The module keeps a process-wide dictionary [_config], offers
    [configure] and [get_prompt], and wraps both in two classes whose
    [__getattr__] hooks turn [promptvault.<project>.<prompt>] into a call of
    [get_prompt].

    Modelling choices.
    - Python [str] values are Rocq [string]s holding the UTF-8 bytes.  The
      only characters the code inspects are ['/'], ['_'] and ['-'], which are
      single bytes that never occur inside a multi-byte sequence, so
      [rstrip] and [replace] on bytes agree with Python's on code points.
    - The global [_config] dict is a [gmap]; the literal dicts [headers] and
      [params] handed to [requests.get] are ordered item lists (Python dicts
      keep insertion order, and that order is the order on the wire).
    - Effects are explicit: a computation reads an environment (the remote
      end reached through [requests.get], and the interpreter's table of
      inherited attribute names), threads a state (the [_config] dict and the
      log of calls made to [requests.get]) and ends by returning a value or
      raising an exception. *)

From Stdlib Require Import ZArith Ascii String List.
From stdpp Require Import base option strings pretty list gmap.

Set Warnings "-register-all".
Local Open Scope Z_scope.

(** ** Python values and exceptions *)

(** The values [response.json()] can produce; a float is kept as its
    IEEE-754 bit pattern because the code never computes with one. *)
Inductive pyval :=
| PNone
| PBool (b : bool)
| PInt (z : Z)
| PFloat (bits : Z)
| PStr (s : string)
| PList (l : list pyval)
| PDict (d : gmap string pyval).

(** Exception classes that occur: the built-in ones the module raises or
    lets escape, and the hierarchy of [requests.exceptions]. *)
Inductive pyclass :=
| Exception | ValueError | KeyError | TypeError
| RequestException | ConnectionError | Timeout | ConnectTimeout
| ReadTimeout | HTTPError | JSONDecodeError.

(** [isinstance(e, requests.exceptions.RequestException)], by class. *)
Definition is_RequestException (c : pyclass) : bool :=
  match c with
  | RequestException | ConnectionError | Timeout | ConnectTimeout
  | ReadTimeout | HTTPError | JSONDecodeError => true
  | Exception | ValueError | KeyError | TypeError => false
  end.

(** An exception object: its class, what [str(e)] gives, and the
    [__context__] the interpreter attaches when it is raised while another
    exception is being handled. *)
Inductive pyexn := PyExn {
  exn_class : pyclass;
  exn_str : string;
  exn_context : option pyexn
}.

Definition new_exn (c : pyclass) (msg : string) : pyexn :=
  {| exn_class := c; exn_str := msg; exn_context := None |}.

(** Truthiness of the values the module tests with [not] and [if]. *)
Definition truthy_str (v : option string) : bool :=
  match v with
  | Some (String _ _) => true
  | Some EmptyString | None => false
  end.

Definition truthy_int (v : option Z) : bool :=
  match v with
  | Some z => negb (z =? 0)
  | None => false
  end.

(** [f"{v}"] for a value that is [None] or a [str]. *)
Definition format_str (v : option string) : string :=
  match v with
  | Some s => s
  | None => "None"
  end.

(** ** String methods used by the module *)

Fixpoint in_chars (c : ascii) (chars : string) : bool :=
  match chars with
  | EmptyString => false
  | String d rest => if Ascii.eqb c d then true else in_chars c rest
  end.

(** [s.rstrip(chars)]: drop the longest suffix made of characters of
    [chars]. *)
Fixpoint rstrip (chars : string) (s : string) : string :=
  match s with
  | EmptyString => EmptyString
  | String c rest =>
      match rstrip chars rest with
      | EmptyString => if in_chars c chars then EmptyString else String c EmptyString
      | kept => String c kept
      end
  end.

(** [s.replace(old, new)] for one-character [old] and [new]. *)
Fixpoint replace (old new : ascii) (s : string) : string :=
  match s with
  | EmptyString => EmptyString
  | String c rest => String (if Ascii.eqb c old then new else c) (replace old new rest)
  end.

(** ** The HTTP exchange as [requests.get] sees it *)

Inductive param :=
| PrmStr (s : string)
| PrmInt (z : Z).

Record request := {
  url : string;
  headers : list (string * option string);
  params : list (string * param);
  timeout : Z
}.

(** A response: [resp.status_code], [resp.text], and what [resp.json()]
    does (raise, or return the decoded body). *)
Record response := {
  status_code : Z;
  text : string;
  json : pyexn + pyval
}.

(** [d[k] = v] on an ordered dict: overwrite in place, or append. *)
Fixpoint dict_set {V} (d : list (string * V)) (k : string) (v : V) : list (string * V) :=
  match d with
  | [] => [(k, v)]
  | (k', v') :: rest =>
      if String.eqb k k' then (k, v) :: rest else (k', v') :: dict_set rest k v
  end.

Fixpoint dict_get {V} (d : list (string * V)) (k : string) : option V :=
  match d with
  | [] => None
  | (k', v') :: rest => if String.eqb k k' then Some v' else dict_get rest k
  end.

(** ** Computations *)

(** What the program cannot see into: how the remote end answers a call,
    given the calls made so far, and which attribute names every instance
    already has from [object] and from its class object (the set depends on
    the interpreter version). *)
Record env := {
  remote : list request -> request -> pyexn + response;
  inherited : string -> bool
}.

Record state := {
  _config : gmap string (option string);
  sent : list request
}.

Inductive outcome (A : Type) :=
| Return (a : A)
| Raise (e : pyexn).
Arguments Return {A} a.
Arguments Raise {A} e.

Definition M (A : Type) : Type := env -> state -> outcome A * state.

Definition ret {A} (a : A) : M A := fun _ s => (Return a, s).

Definition bind {A B} (m : M A) (k : A -> M B) : M B := fun e s =>
  match m e s with
  | (Return a, s') => k a e s'
  | (Raise x, s') => (Raise x, s')
  end.

Definition raise {A} (x : pyexn) : M A := fun _ s => (Raise x, s).

(** [raise new] executed inside [except ... as cause:]. *)
Definition raise_handling {A} (cause : pyexn) (new : pyexn) : M A :=
  raise {| exn_class := exn_class new; exn_str := exn_str new;
           exn_context := Some cause |}.

(** [try: body  except <classes> as x: handler x]. *)
Definition try_except {A} (body : M A) (catches : pyclass -> bool)
    (handler : pyexn -> M A) : M A := fun e s =>
  match body e s with
  | (Raise x, s') => if catches (exn_class x) then handler x e s' else (Raise x, s')
  | done => done
  end.

Declare Scope py_scope.
Delimit Scope py_scope with py.
Notation "x <- m ;; k" := (bind m (fun x => k))
  (at level 100, m at next level, right associativity) : py_scope.
Notation "m ;;; k" := (bind m (fun _ => k))
  (at level 100, right associativity) : py_scope.
Local Open Scope py_scope.

(** [_config[k]]; a missing key would be a [KeyError]. *)
Definition config_get (k : string) : M (option string) := fun _ s =>
  match _config s !! k with
  | Some v => (Return v, s)
  | None => (Raise (new_exn KeyError ("'" +:+ k +:+ "'")), s)
  end.

(** [_config[k] = v]. *)
Definition config_set (k : string) (v : option string) : M unit := fun _ s =>
  (Return tt, {| _config := <[k := v]> (_config s); sent := sent s |}).

(** [requests.get(url, headers=..., params=..., timeout=...)]: the call is
    logged, and the remote end decides between a response and a raised
    exception. *)
Definition requests_get (r : request) : M response := fun e s =>
  let s' := {| _config := _config s; sent := sent s ++ [r] |} in
  match remote e (sent s) r with
  | inl x => (Raise x, s')
  | inr resp => (Return resp, s')
  end.

(** [resp.json()]. *)
Definition response_json (resp : response) : M pyval :=
  match json resp with
  | inl x => raise x
  | inr v => ret v
  end.

(** [v[key]] for a [str] key.  The classes are the interpreter's; the
    message texts are those of CPython 3.10 (later versions word the [str]
    case differently), and no statement below depends on a [TypeError]
    text. *)
Definition subscript (v : pyval) (key : string) : M pyval :=
  match v with
  | PDict d =>
      match d !! key with
      | Some x => ret x
      | None => raise (new_exn KeyError ("'" +:+ key +:+ "'"))
      end
  | PList _ => raise (new_exn TypeError "list indices must be integers or slices, not str")
  | PStr _ => raise (new_exn TypeError "string indices must be integers")
  | PNone => raise (new_exn TypeError "'NoneType' object is not subscriptable")
  | PBool _ => raise (new_exn TypeError "'bool' object is not subscriptable")
  | PInt _ => raise (new_exn TypeError "'int' object is not subscriptable")
  | PFloat _ => raise (new_exn TypeError "'float' object is not subscriptable")
  end.

(** ** The module *)

(** The [_config] literal of the module body. *)
Definition initial_config : gmap string (option string) :=
  <["api_key" := None]> (<["base_url" := None]> ∅).

Definition configure (base_url api_key : string) : M unit :=
  config_set "base_url" (Some (rstrip "/" base_url)) ;;;
  config_set "api_key" (Some api_key).

Definition get_prompt (slug project_slug : string) (version : option Z) : M pyval :=
  base <- config_get "base_url" ;;
  unconfigured <-
    (if negb (truthy_str base) then ret true
     else key <- config_get "api_key" ;; ret (negb (truthy_str key))) ;;
  if unconfigured : bool then
    raise (new_exn ValueError
             "PromptVault not configured. Call promptvault.configure() first.")
  else
    base <- config_get "base_url" ;;
    let url := format_str base +:+ "/api/prompts/" +:+ slug in
    key <- config_get "api_key" ;;
    let headers := [("x-api-key", key)] in
    let params := [("projectSlug", PrmStr project_slug)] in
    let params :=
      match version with
      | Some v => if truthy_int version then dict_set params "version" (PrmInt v) else params
      | None => params
      end in
    try_except
      (resp <- requests_get {| url := url; headers := headers;
                               params := params; timeout := 10 |} ;;
       if status_code resp =? 200 then
         body <- response_json resp ;;
         subscript body "content"
       else if status_code resp =? 401 then
         raise (new_exn ValueError "Invalid API key")
       else if status_code resp =? 404 then
         raise (new_exn ValueError
                  ("Prompt '" +:+ slug +:+ "' not found in project '"
                   +:+ project_slug +:+ "'"))
       else if status_code resp =? 403 then
         raise (new_exn ValueError "Access denied to this project")
       else
         raise (new_exn Exception
                  ("API error: " +:+ pretty (status_code resp) +:+ " - "
                   +:+ text resp)))
      is_RequestException
      (fun e => raise_handling e
                  (new_exn Exception ("Network error: " +:+ exn_str e))).

(** ** Dotted access *)

(** What an attribute access can evaluate to: plain data (a [str] kept by an
    instance, or whatever [get_prompt] returned), a [PromptProxy] instance,
    or something the interpreter supplies without consulting [__getattr__]
    (a bound method, an attribute inherited from [object], or any lookup on
    one of those), recorded by its path and not modelled further. *)
Inductive pyobj :=
| Value (v : pyval)
| ProxyObj (project_slug : string)
| Opaque (path : list string).

Module PromptProxy.

(** An instance is its [__dict__], which [__init__] fills with
    [_project_slug] only. *)
Record t := { _project_slug : string }.

Definition __init__ (project_slug : string) : t :=
  {| _project_slug := project_slug |}.

Definition __getattr__ (self : t) (name : string) : M pyval :=
  let slug := replace "_" "-" name in
  get_prompt slug (_project_slug self) None.

(** Names the class body defines. *)
Definition class_attrs : list string := ["__init__"; "__getattr__"].

(** Ordinary lookup succeeds: [__getattr__] is not consulted. *)
Definition has_attr (e : env) (name : string) : bool :=
  String.eqb name "_project_slug"
  || bool_decide (name ∈ class_attrs) || inherited e name.

(** The expression [self.name]. *)
Definition getattr (self : t) (name : string) : M pyobj := fun e =>
  (if String.eqb name "_project_slug" then
     ret (Value (PStr (_project_slug self)))
   else if bool_decide (name ∈ class_attrs) || inherited e name then
     ret (Opaque [name])
   else
     v <- __getattr__ self name ;; ret (Value v)) e.

End PromptProxy.

Module PromptVaultModule.

Definition __getattr__ (name : string) : PromptProxy.t :=
  let project_slug := replace "_" "-" name in
  PromptProxy.__init__ project_slug.

Definition configure (base_url api_key : string) : M unit :=
  configure base_url api_key.

Definition get_prompt (slug project_slug : string) (version : option Z) : M pyval :=
  get_prompt slug project_slug version.

Definition class_attrs : list string := ["__getattr__"; "configure"; "get_prompt"].

Definition has_attr (e : env) (name : string) : bool :=
  bool_decide (name ∈ class_attrs) || inherited e name.

(** The expression [promptvault.name], where [promptvault] is the instance
    the module installs in [sys.modules]. *)
Definition getattr (name : string) : M pyobj := fun e =>
  (if bool_decide (name ∈ class_attrs) || inherited e name then
     ret (Opaque [name])
   else
     ret (ProxyObj (PromptProxy._project_slug (__getattr__ name)))) e.

End PromptVaultModule.

(** The expression [promptvault.n.m]. *)
Definition dotted (n m : string) : M pyobj :=
  o <- PromptVaultModule.getattr n ;;
  match o with
  | ProxyObj project_slug => PromptProxy.getattr (PromptProxy.__init__ project_slug) m
  | Value _ => ret (Opaque [n; m])
  | Opaque path => ret (Opaque (path ++ [m]))
  end.

(** A run of [configure] calls, in order. *)
Fixpoint configure_all (calls : list (string * string)) : M unit :=
  match calls with
  | [] => ret tt
  | (base_url, api_key) :: rest => configure base_url api_key ;;; configure_all rest
  end.

(** ** The error kinds of the documentation, as the exceptions the code
    raises for them *)

Definition NotConfigured : pyexn :=
  new_exn ValueError "PromptVault not configured. Call promptvault.configure() first.".

Definition InvalidCredentials : pyexn := new_exn ValueError "Invalid API key".

Definition NotFound (slug project_slug : string) : pyexn :=
  new_exn ValueError
    ("Prompt '" +:+ slug +:+ "' not found in project '" +:+ project_slug +:+ "'").

Definition AccessDenied : pyexn := new_exn ValueError "Access denied to this project".

Definition ApiError (status : Z) (body : string) : pyexn :=
  new_exn Exception ("API error: " +:+ pretty status +:+ " - " +:+ body).

Definition NetworkError (cause : pyexn) : pyexn :=
  {| exn_class := Exception;
     exn_str := "Network error: " +:+ exn_str cause;
     exn_context := Some cause |}.

(** ** Vocabulary for the statements *)

(** The interpreter state right after the module body has run. *)
Definition initial_state : state := {| _config := initial_config; sent := [] |}.

(** Both settings are stored and truthy. *)
Definition configured (s : state) (base_url api_key : string) : Prop :=
  _config s !! "base_url" = Some (Some base_url) ∧ base_url ≠ "" ∧
  _config s !! "api_key" = Some (Some api_key) ∧ api_key ≠ "".

(** The state after one more call of [requests.get]. *)
Definition logged (r : request) (s : state) : state :=
  {| _config := _config s; sent := sent s ++ [r] |}.

(** [sub] occurs in [s]. *)
Definition occurs_in (sub s : string) : Prop :=
  ∃ before after, s = before +:+ sub +:+ after.

(** The suffix of [s] consisting of [n] copies of [c]. *)
Fixpoint repeat_char (c : ascii) (n : nat) : string :=
  match n with
  | O => EmptyString
  | S k => String c (repeat_char c k)
  end.

Definition ends_with (c : ascii) (s : string) : Prop :=
  ∃ front, s = front +:+ String c EmptyString.

(** The query parameters and the call [get_prompt] makes once it has found
    the two settings. *)
Definition query (project_slug : string) (version : option Z) : list (string * param) :=
  ("projectSlug", PrmStr project_slug) ::
  match version with
  | Some v => if v =? 0 then [] else [("version", PrmInt v)]
  | None => []
  end.

Definition the_request (base_url api_key slug project_slug : string)
    (version : option Z) : request :=
  {| url := base_url +:+ "/api/prompts/" +:+ slug;
     headers := [("x-api-key", Some api_key)];
     params := query project_slug version;
     timeout := 10 |}.

(** What the [try] block makes of the answer to that call. *)
Definition escapes (x : pyexn) : outcome pyval :=
  if is_RequestException (exn_class x) then Raise (NetworkError x) else Raise x.

Definition answer (slug project_slug : string) (r : pyexn + response) : outcome pyval :=
  match r with
  | inl x => escapes x
  | inr resp =>
      if status_code resp =? 200 then
        match json resp with
        | inl x => escapes x
        | inr (PDict d) =>
            match d !! "content" with
            | Some v => Return v
            | None => Raise (new_exn KeyError "'content'")
            end
        | inr (PList _) =>
            Raise (new_exn TypeError "list indices must be integers or slices, not str")
        | inr (PStr _) => Raise (new_exn TypeError "string indices must be integers")
        | inr PNone => Raise (new_exn TypeError "'NoneType' object is not subscriptable")
        | inr (PBool _) => Raise (new_exn TypeError "'bool' object is not subscriptable")
        | inr (PInt _) => Raise (new_exn TypeError "'int' object is not subscriptable")
        | inr (PFloat _) => Raise (new_exn TypeError "'float' object is not subscriptable")
        end
      else if status_code resp =? 401 then Raise InvalidCredentials
      else if status_code resp =? 404 then Raise (NotFound slug project_slug)
      else if status_code resp =? 403 then Raise AccessDenied
      else Raise (ApiError (status_code resp) (text resp))
  end.

(** The six error kinds of the documentation. *)
Definition documented (x : pyexn) : Prop :=
  x = NotConfigured ∨ x = InvalidCredentials ∨ x = AccessDenied
  ∨ (∃ slug project_slug, x = NotFound slug project_slug)
  ∨ (∃ status body, x = ApiError status body)
  ∨ (∃ cause, x = NetworkError cause).

(** The class of the exception [body["content"]] raises when it raises. *)
Definition lookup_failure (body : pyval) : pyclass :=
  match body with
  | PDict _ => KeyError
  | _ => TypeError
  end.

(** ** Sequences of calls through the module object *)

(** The three ways a program uses the package: [promptvault.configure(..)],
    [promptvault.get_prompt(..)] and [promptvault.n.m]. *)
Inductive call :=
| CallConfigure (base_url api_key : string)
| CallGetPrompt (slug project_slug : string) (version : option Z)
| CallDotted (n m : string).

(** The state a call leaves behind, whether it returned or raised: what the
    next call sees when the caller wraps each call in its own [try], as
    [example.py] does. *)
Definition after_call (e : env) (s : state) (c : call) : state :=
  match c with
  | CallConfigure base_url api_key =>
      snd (PromptVaultModule.configure base_url api_key e s)
  | CallGetPrompt slug project_slug version =>
      snd (PromptVaultModule.get_prompt slug project_slug version e s)
  | CallDotted n m => snd (dotted n m e s)
  end.

Definition after_calls (e : env) (calls : list call) (s : state) : state :=
  fold_left (after_call e) calls s.

(** The arguments of the last [configure] among the calls, if any. *)
Fixpoint last_configure (calls : list call) : option (string * string) :=
  match calls with
  | [] => None
  | c :: rest =>
      match last_configure rest with
      | Some found => Some found
      | None =>
          match c with
          | CallConfigure base_url api_key => Some (base_url, api_key)
          | _ => None
          end
      end
  end.

(** How many of the calls are fetches. *)
Fixpoint fetches (calls : list call) : nat :=
  match calls with
  | [] => O
  | CallConfigure _ _ :: rest => fetches rest
  | _ :: rest => S (fetches rest)
  end.

(** ** Sample surroundings, used to run the code on concrete inputs *)

(** Attribute names an instance of a plain class has in CPython 3.11. *)
Definition cpython_inherited (name : string) : bool :=
  bool_decide (name ∈
    ["__class__"; "__delattr__"; "__dict__"; "__dir__"; "__doc__"; "__eq__";
     "__format__"; "__ge__"; "__getattribute__"; "__getstate__"; "__gt__";
     "__hash__"; "__init__"; "__init_subclass__"; "__le__"; "__lt__";
     "__module__"; "__ne__"; "__new__"; "__reduce__"; "__reduce_ex__";
     "__repr__"; "__setattr__"; "__sizeof__"; "__str__"; "__subclasshook__";
     "__weakref__"]).

(** A remote end that gives the same answer to every call. *)
Definition answering (r : pyexn + response) : env :=
  {| remote := fun _ _ => r; inherited := cpython_inherited |}.

Definition ok_json (body : pyval) : response :=
  {| status_code := 200; text := ""; json := inr body |}.

Definition plain (status : Z) (body : string) : response :=
  {| status_code := status; text := body;
     json := inl (new_exn JSONDecodeError "Expecting value: line 1 column 1 (char 0)") |}.

(** The state after the [configure] call of [example.py], with a shorter
    host name and key. *)
Definition example_state : state :=
  snd (configure "https://vault.example/" "pk_test" (answering (inl (new_exn Timeout ""))) initial_state).

(** ** Basic facts about the computations *)

Section Runs.
Variable e : env.

Lemma config_get_run (s : state) (k : string) (v : option string) :
  _config s !! k = Some v → config_get k e s = (Return v, s).
Proof. intros H. unfold config_get. by rewrite H. Qed.

Lemma configure_run (s : state) (base_url api_key : string) :
  configure base_url api_key e s =
  (Return tt,
   {| _config := <["api_key" := Some api_key]>
                   (<["base_url" := Some (rstrip "/" base_url)]> (_config s));
      sent := sent s |}).
Proof. reflexivity. Qed.

Lemma get_prompt_unconfigured (s : state) (vb vk : option string)
    (slug project_slug : string) (version : option Z) :
  _config s !! "base_url" = Some vb →
  _config s !! "api_key" = Some vk →
  truthy_str vb && truthy_str vk = false →
  get_prompt slug project_slug version e s = (Raise NotConfigured, s).
Proof.
  intros Hb Hk Hfalsy. unfold get_prompt, bind.
  rewrite (config_get_run s _ _ Hb).
  destruct (truthy_str vb) eqn:Eb; simpl.
  - rewrite (config_get_run s _ _ Hk). simpl in Hfalsy. by rewrite Hfalsy.
  - reflexivity.
Qed.

Lemma get_prompt_configured (s : state) (base_url api_key : string)
    (slug project_slug : string) (version : option Z) :
  configured s base_url api_key →
  get_prompt slug project_slug version e s =
  (answer slug project_slug
     (remote e (sent s) (the_request base_url api_key slug project_slug version)),
   logged (the_request base_url api_key slug project_slug version) s).
Proof.
  intros (Hb & Hbne & Hk & Hkne). unfold get_prompt, bind.
  destruct base_url as [|b0 b]; [done|]. destruct api_key as [|k0 k]; [done|].
  rewrite (config_get_run s _ _ Hb). cbn [truthy_str negb].
  rewrite (config_get_run s _ _ Hk). cbn [truthy_str negb ret].
  rewrite (config_get_run s _ _ Hb), (config_get_run s _ _ Hk).
  cbn [format_str].
  assert (Hq : match version with
               | Some v =>
                   if truthy_int version
                   then dict_set [("projectSlug", PrmStr project_slug)] "version" (PrmInt v)
                   else [("projectSlug", PrmStr project_slug)]
               | None => [("projectSlug", PrmStr project_slug)]
               end = query project_slug version).
  { unfold query. destruct version as [v|]; [|done]. simpl.
    by destruct (v =? 0). }
  rewrite Hq. unfold try_except, requests_get, bind, the_request, logged.
  destruct (remote e (sent s) _) as [x|resp]; simpl.
  - unfold escapes, raise_handling, raise, NetworkError.
    by destruct (is_RequestException (exn_class x)).
  - destruct (status_code resp =? 200).
    + unfold response_json. destruct (json resp) as [x|body]; simpl.
      * unfold escapes, raise_handling, raise, NetworkError.
        by destruct (is_RequestException (exn_class x)).
      * destruct body; simpl; try done.
        by destruct (d !! "content").
    + destruct (status_code resp =? 401); [done|].
      destruct (status_code resp =? 404); [done|].
      by destruct (status_code resp =? 403).
Qed.

End Runs.

(** ** Facts about [rstrip] and [replace] *)

Lemma str_app_nil (s : string) : "" +:+ s = s.
Proof. reflexivity. Qed.

Lemma str_app_cons (c : ascii) (s t : string) : String c s +:+ t = String c (s +:+ t).
Proof. reflexivity. Qed.

Lemma str_app_assoc (s t u : string) : (s +:+ t) +:+ u = s +:+ t +:+ u.
Proof.
  induction s as [|c s IH]; [done|]. rewrite !str_app_cons. by f_equal.
Qed.

Lemma str_app_nil_r (s : string) : s +:+ "" = s.
Proof.
  induction s as [|c s IH]; [done|]. rewrite str_app_cons. by f_equal.
Qed.

Lemma rstrip_slash_split (s : string) :
  ∃ n, s = rstrip "/" s +:+ repeat_char "/" n.
Proof.
  induction s as [|c rest [n IH]]; [by exists O|].
  cbn [rstrip]. destruct (rstrip "/" rest) as [|k kept] eqn:Ek.
  - rewrite str_app_nil in IH. cbn [in_chars].
    destruct (Ascii.eqb c "/") eqn:Ec.
    + apply Ascii.eqb_eq in Ec as ->. exists (S n).
      rewrite str_app_nil. cbn [repeat_char]. by f_equal.
    + exists n. rewrite str_app_cons, str_app_nil. by f_equal.
  - exists n. rewrite str_app_cons. by f_equal.
Qed.

Lemma rstrip_slash_tight (s : string) : ¬ ends_with "/" (rstrip "/" s).
Proof.
  induction s as [|c rest IH]; intros [front Hfront].
  - destruct front; rewrite ?str_app_cons, ?str_app_nil in Hfront; discriminate.
  - cbn [rstrip] in Hfront. destruct (rstrip "/" rest) as [|k kept] eqn:Ek.
    + cbn [in_chars] in Hfront. destruct (Ascii.eqb c "/") eqn:Ec.
      * destruct front; rewrite ?str_app_cons, ?str_app_nil in Hfront; discriminate.
      * destruct front as [|f0 front]; rewrite ?str_app_cons, ?str_app_nil in Hfront.
        -- injection Hfront as ->. by rewrite Ascii.eqb_refl in Ec.
        -- injection Hfront as _ Hnil.
           destruct front; rewrite ?str_app_cons, ?str_app_nil in Hnil; discriminate.
    + destruct front as [|f0 front]; rewrite ?str_app_cons, ?str_app_nil in Hfront.
      * discriminate.
      * injection Hfront as _ Hkept. apply IH. by exists front.
Qed.

Lemma rstrip_empty (chars : string) : rstrip chars "" = "".
Proof. reflexivity. Qed.

(** ** Configuration store *)

Lemma config_overwrite (m : gmap string (option string)) (b b' k k' : option string) :
  <["api_key" := k]> (<["base_url" := b]> (<["api_key" := k']> (<["base_url" := b']> m)))
  = <["api_key" := k]> (<["base_url" := b]> m).
Proof.
  rewrite (insert_insert_ne _ "base_url" "api_key") by done.
  by rewrite !insert_insert_eq.
Qed.

Lemma configure_all_last (e : env) (calls : list (string * string))
    (base_url api_key : string) (s : state) :
  configure_all (calls ++ [(base_url, api_key)]) e s = configure base_url api_key e s.
Proof.
  revert s. induction calls as [|[b' k'] rest IH]; intros s.
  - reflexivity.
  - change (configure_all (((b', k') :: rest) ++ [(base_url, api_key)]) e s)
      with (configure_all (rest ++ [(base_url, api_key)]) e (snd (configure b' k' e s))).
    rewrite IH, !configure_run. cbn [snd _config sent].
    by rewrite config_overwrite.
Qed.

(** C7. Whatever [configure] calls came before, the state after a run of
    calls is the state the last call alone would have produced (and so
    repeating a call changes nothing); no call raises, whatever the two
    strings are; the stored [base_url] is the argument without its trailing
    slashes (the argument is the stored value followed by slashes only, and
    the stored value does not end in a slash); the stored [api_key] is the
    argument itself; the request log is untouched. *)
Theorem configure_last_call_wins (e : env) (s : state)
    (calls : list (string * string)) (base_url api_key : string) :
  configure_all (calls ++ [(base_url, api_key)]) e s = configure base_url api_key e s
  ∧ configure_all [(base_url, api_key); (base_url, api_key)] e s
    = configure base_url api_key e s
  ∧ fst (configure base_url api_key e s) = Return tt
  ∧ _config (snd (configure base_url api_key e s)) !! "base_url"
    = Some (Some (rstrip "/" base_url))
  ∧ (∃ n, base_url = rstrip "/" base_url +:+ repeat_char "/" n)
  ∧ ¬ ends_with "/" (rstrip "/" base_url)
  ∧ _config (snd (configure base_url api_key e s)) !! "api_key" = Some (Some api_key)
  ∧ sent (snd (configure base_url api_key e s)) = sent s.
Proof.
  split; [apply configure_all_last|].
  split; [apply (configure_all_last e [(base_url, api_key)])|].
  rewrite configure_run. cbn [fst snd _config sent].
  split; [done|]. split.
  { rewrite lookup_insert_ne by done. apply lookup_insert_eq. }
  split; [apply rstrip_slash_split|]. split; [apply rstrip_slash_tight|].
  split; [apply lookup_insert_eq|done].
Qed.

Example configure_example :
  _config example_state !! "base_url" = Some (Some "https://vault.example")
  ∧ _config example_state !! "api_key" = Some (Some "pk_test")
  ∧ rstrip "/" "https://vault.example///" = "https://vault.example"
  ∧ rstrip "/" "a/b" = "a/b".
Proof. by vm_compute. Qed.

(** ** The not-configured guard *)

Lemma initial_config_base_url : initial_config !! "base_url" = Some None.
Proof. reflexivity. Qed.

Lemma initial_config_api_key : initial_config !! "api_key" = Some None.
Proof. reflexivity. Qed.

(** C2. In the state the module body leaves behind, that is with no
    [configure] call made yet, [get_prompt] raises the not-configured error
    for every slug, project and version and whatever the remote end would
    answer; the state, hence the log of [requests.get] calls, is unchanged:
    no request is attempted. *)
Theorem get_prompt_before_configure (e : env) (log : list request)
    (slug project_slug : string) (version : option Z) :
  get_prompt slug project_slug version e {| _config := initial_config; sent := log |}
  = (Raise NotConfigured, {| _config := initial_config; sent := log |}).
Proof.
  apply (get_prompt_unconfigured e _ None None);
    [apply initial_config_base_url | apply initial_config_api_key | reflexivity].
Qed.

Lemma logged_neq (r : request) (s : state) : logged r s ≠ s.
Proof.
  intros H. apply (f_equal sent) in H. cbn [logged sent] in H.
  apply (f_equal length) in H. rewrite length_app in H. simpl in H. lia.
Qed.

(** C9. After [configure] with an empty [base_url] or an empty [api_key],
    [get_prompt] still raises the not-configured error and leaves the state,
    hence the request log, as it was, so the same holds for every later
    call.  What decides is the truthiness of the two stored values: in any
    state holding both keys, [get_prompt] stops at the guard exactly when
    one of the two values is falsy. *)
Theorem falsy_settings_not_configured (e : env) (s : state)
    (base_url api_key : string) (slug project_slug : string) (version : option Z) :
  base_url = "" ∨ api_key = "" →
  get_prompt slug project_slug version e (snd (configure base_url api_key e s))
  = (Raise NotConfigured, snd (configure base_url api_key e s))
  ∧ ∀ (s0 : state) (vb vk : option string),
      _config s0 !! "base_url" = Some vb →
      _config s0 !! "api_key" = Some vk →
      (get_prompt slug project_slug version e s0 = (Raise NotConfigured, s0)
       ↔ truthy_str vb && truthy_str vk = false).
Proof.
  intros Hfalsy. split.
  - rewrite configure_run. cbn [snd].
    eapply get_prompt_unconfigured; cbn [_config].
    + rewrite lookup_insert_ne by done. apply lookup_insert_eq.
    + apply lookup_insert_eq.
    + destruct Hfalsy as [-> | ->]; [done|]. apply andb_false_r.
  - intros s0 vb vk Hb Hk. split.
    + intros Hrun. destruct (truthy_str vb && truthy_str vk) eqn:Et; [|done].
      apply andb_true_iff in Et as [Eb Ekk].
      destruct vb as [[|b0 b]|]; try done. destruct vk as [[|k0 k]|]; try done.
      rewrite (get_prompt_configured e s0 (String b0 b) (String k0 k)) in Hrun
        by done.
      injection Hrun as _ Hs. by apply logged_neq in Hs.
    + by apply get_prompt_unconfigured.
Qed.

Lemma falsy_settings_not_configured_witness :
  ("" = "" ∨ "pk_test" = "")
  ∧ get_prompt "research-manager" "agents-lextenso" None
      (answering (inr (ok_json PNone)))
      (snd (configure "" "pk_test" (answering (inr (ok_json PNone))) initial_state))
    = (Raise NotConfigured,
       snd (configure "" "pk_test" (answering (inr (ok_json PNone))) initial_state)).
Proof.
  split; [by left|].
  apply (falsy_settings_not_configured (answering (inr (ok_json PNone)))
           initial_state "" "pk_test" "research-manager" "agents-lextenso" None).
  by left.
Defined.

(** ** Successful fetch *)

Lemma get_prompt_content (e : env) (s : state) (base_url api_key : string)
    (slug project_slug : string) (version : option Z)
    (resp : response) (d : gmap string pyval) (v : pyval) :
  configured s base_url api_key →
  remote e (sent s) (the_request base_url api_key slug project_slug version) = inr resp →
  status_code resp = 200 →
  json resp = inr (PDict d) →
  d !! "content" = Some v →
  get_prompt slug project_slug version e s
  = (Return v, logged (the_request base_url api_key slug project_slug version) s).
Proof.
  intros Hc Hr Hst Hj Hd. rewrite (get_prompt_configured e s _ _ _ _ _ Hc), Hr.
  unfold answer. by rewrite Hst, Hj, Hd.
Qed.

(** C1. With both settings in place, if the call is answered with status
    200 and a decoded body that is an object whose [content] entry is the
    string [X], then [get_prompt] returns the string [X] itself, for every
    slug, project and version, having made exactly that one call. *)
Theorem get_prompt_returns_content (e : env) (s : state) (base_url api_key : string)
    (slug project_slug : string) (version : option Z)
    (resp : response) (d : gmap string pyval) (X : string) :
  configured s base_url api_key →
  remote e (sent s) (the_request base_url api_key slug project_slug version) = inr resp →
  status_code resp = 200 →
  json resp = inr (PDict d) →
  d !! "content" = Some (PStr X) →
  get_prompt slug project_slug version e s
  = (Return (PStr X), logged (the_request base_url api_key slug project_slug version) s).
Proof. apply get_prompt_content. Qed.

Lemma example_state_configured : configured example_state "https://vault.example" "pk_test".
Proof. by vm_compute. Qed.

Lemma get_prompt_returns_content_witness :
  get_prompt "research-manager" "agents-lextenso" None
    (answering (inr (ok_json (PDict {[ "content" := PStr "X" ]})))) example_state
  = (Return (PStr "X"),
     logged (the_request "https://vault.example" "pk_test"
               "research-manager" "agents-lextenso" None) example_state).
Proof.
  apply (get_prompt_returns_content
           (answering (inr (ok_json (PDict {[ "content" := PStr "X" ]}))))
           example_state "https://vault.example" "pk_test"
           "research-manager" "agents-lextenso" None
           (ok_json (PDict {[ "content" := PStr "X" ]}))
           {[ "content" := PStr "X" ]} "X");
    [exact example_state_configured | reflexivity | reflexivity | reflexivity
    | reflexivity].
Defined.

(** ** Reading the parts back out of an error message *)

Lemma occurs_in_mid (a sub b : string) : occurs_in sub (a +:+ sub +:+ b).
Proof. by exists a, b. Qed.

Lemma pretty_N_go_no_space (x : N) (s : string) :
  in_chars " " s = false → in_chars " " (pretty_N_go x s) = false.
Proof.
  revert s. induction (N.lt_wf_0 x) as [x _ IH]; intros s Hs.
  destruct (decide (x = 0)%N) as [->|Hx]; [by rewrite pretty_N_go_0|].
  rewrite pretty_N_go_step by lia. apply IH; [apply N.div_lt; lia|].
  cbn [in_chars]. rewrite Hs. unfold pretty_N_char. by repeat case_match.
Qed.

Lemma pretty_N_no_space (x : N) : in_chars " " (pretty x) = false.
Proof.
  unfold pretty, pretty_N. case_decide; [done|]. by apply pretty_N_go_no_space.
Qed.

Lemma pretty_Z_no_space (z : Z) : in_chars " " (pretty z) = false.
Proof.
  destruct z as [|p|p]; [done|apply pretty_N_no_space|].
  unfold pretty, pretty_Z. rewrite str_app_cons, str_app_nil. cbn [in_chars].
  apply pretty_N_no_space.
Qed.

Lemma split_at_space (a a' r r' : string) :
  in_chars " " a = false → in_chars " " a' = false →
  a +:+ String " " r = a' +:+ String " " r' → a = a' ∧ r = r'.
Proof.
  revert a'. induction a as [|c a IH]; intros [|c' a'] Ha Ha';
    rewrite ?str_app_cons, ?str_app_nil; intros Heq.
  - by injection Heq.
  - injection Heq as <- _. cbn [in_chars] in Ha'. by rewrite Ascii.eqb_refl in Ha'.
  - injection Heq as -> _. cbn [in_chars] in Ha. by rewrite Ascii.eqb_refl in Ha.
  - injection Heq as -> Heq. cbn [in_chars] in Ha, Ha'.
    destruct (Ascii.eqb " " c'); [done|].
    destruct (IH a' Ha Ha' Heq) as [-> ->]. done.
Qed.

Lemma ApiError_inj (status status' : Z) (body body' : string) :
  ApiError status body = ApiError status' body' → status = status' ∧ body = body'.
Proof.
  unfold ApiError, new_exn. intros [= Hmsg]. rewrite !str_app_nil in Hmsg.
  change (pretty status +:+ String " " ("- " +:+ body)
          = pretty status' +:+ String " " ("- " +:+ body')) in Hmsg.
  apply split_at_space in Hmsg as [Hs Hb]; [|apply pretty_Z_no_space..].
  split; [by apply (inj pretty)|].
  by apply (inj (String.app "- ")) in Hb.
Qed.

(** ** Status codes other than 200 *)

Lemma get_prompt_status (e : env) (s : state) (base_url api_key : string)
    (slug project_slug : string) (version : option Z) (resp : response) :
  configured s base_url api_key →
  remote e (sent s) (the_request base_url api_key slug project_slug version) = inr resp →
  status_code resp ≠ 200 →
  get_prompt slug project_slug version e s
  = (if status_code resp =? 401 then Raise InvalidCredentials
     else if status_code resp =? 404 then Raise (NotFound slug project_slug)
     else if status_code resp =? 403 then Raise AccessDenied
     else Raise (ApiError (status_code resp) (text resp)),
     logged (the_request base_url api_key slug project_slug version) s).
Proof.
  intros Hc Hr Hst. rewrite (get_prompt_configured e s _ _ _ _ _ Hc), Hr.
  unfold answer. by rewrite (proj2 (Z.eqb_neq _ _) Hst).
Qed.

(** C3, as amended.  With both settings in place and the call answered by a
    response: status 401 raises the invalid-credentials error; status 404
    raises the not-found error, whose message contains the slug and the
    project; every status other than 200, 401, 403 and 404 raises the API
    error, whose message contains the decimal status code and the body text,
    and from which both can be read back.  In each case exactly that one
    call was made. *)
Theorem get_prompt_status_errors (e : env) (s : state) (base_url api_key : string)
    (slug project_slug : string) (version : option Z) (resp : response) :
  configured s base_url api_key →
  remote e (sent s) (the_request base_url api_key slug project_slug version) = inr resp →
  (status_code resp = 401 →
     get_prompt slug project_slug version e s
     = (Raise InvalidCredentials,
        logged (the_request base_url api_key slug project_slug version) s))
  ∧ (status_code resp = 404 →
     get_prompt slug project_slug version e s
     = (Raise (NotFound slug project_slug),
        logged (the_request base_url api_key slug project_slug version) s)
     ∧ occurs_in slug (exn_str (NotFound slug project_slug))
     ∧ occurs_in project_slug (exn_str (NotFound slug project_slug)))
  ∧ (status_code resp ≠ 200 → status_code resp ≠ 401 →
     status_code resp ≠ 403 → status_code resp ≠ 404 →
     get_prompt slug project_slug version e s
     = (Raise (ApiError (status_code resp) (text resp)),
        logged (the_request base_url api_key slug project_slug version) s)
     ∧ occurs_in (pretty (status_code resp))
         (exn_str (ApiError (status_code resp) (text resp)))
     ∧ occurs_in (text resp) (exn_str (ApiError (status_code resp) (text resp)))
     ∧ ∀ (status' : Z) (body' : string),
         ApiError (status_code resp) (text resp) = ApiError status' body' →
         status_code resp = status' ∧ text resp = body').
Proof.
  intros Hc Hr. split; [|split].
  - intros H401. rewrite (get_prompt_status e s _ _ _ _ _ _ Hc Hr) by lia.
    by rewrite H401.
  - intros H404. rewrite (get_prompt_status e s _ _ _ _ _ _ Hc Hr) by lia.
    rewrite H404. split; [done|]. split.
    + apply (occurs_in_mid "Prompt '").
    + exists ("Prompt '" +:+ slug +:+ "' not found in project '"), "'".
      cbn [NotFound new_exn exn_str]. by rewrite !str_app_assoc.
  - intros H200 H401 H403 H404.
    rewrite (get_prompt_status e s _ _ _ _ _ _ Hc Hr) by done.
    rewrite (proj2 (Z.eqb_neq _ _) H401), (proj2 (Z.eqb_neq _ _) H404),
      (proj2 (Z.eqb_neq _ _) H403).
    split; [done|]. split; [apply (occurs_in_mid "API error: ")|]. split.
    + exists ("API error: " +:+ pretty (status_code resp) +:+ " - "), "".
      cbn [ApiError new_exn exn_str]. by rewrite !str_app_assoc, str_app_nil_r.
    + intros status' body'. apply ApiError_inj.
Qed.

Lemma get_prompt_status_errors_witness :
  get_prompt "research-manager" "agents-lextenso" None
    (answering (inr (plain 500 "Internal Server Error"))) example_state
  = (Raise (new_exn Exception "API error: 500 - Internal Server Error"),
     logged (the_request "https://vault.example" "pk_test"
               "research-manager" "agents-lextenso" None) example_state).
Proof.
  apply (get_prompt_status_errors
           (answering (inr (plain 500 "Internal Server Error")))
           example_state "https://vault.example" "pk_test"
           "research-manager" "agents-lextenso" None
           (plain 500 "Internal Server Error")
           example_state_configured eq_refl);
    by vm_compute.
Defined.

(** C3 as first stated fails at status 403: it is neither 200, 401 nor 404,
    yet the error raised is the access-denied one, not the API error. *)
Lemma status_403_is_not_api_error :
  (403 ≠ 200 ∧ 403 ≠ 401 ∧ 403 ≠ 404)
  ∧ fst (get_prompt "research-manager" "agents-lextenso" None
           (answering (inr (plain 403 "Forbidden"))) example_state)
    = Raise (new_exn ValueError "Access denied to this project")
  ∧ fst (get_prompt "research-manager" "agents-lextenso" None
           (answering (inr (plain 403 "Forbidden"))) example_state)
    ≠ Raise (ApiError 403 "Forbidden").
Proof. by vm_compute. Qed.

(** C4, as amended.  With both settings in place, a response with status
    403 makes [get_prompt] raise the access-denied error, a [ValueError]
    with the fixed message "Access denied to this project": the same
    exception whatever the slug and the project are. *)
Theorem get_prompt_status_403 (e : env) (s : state) (base_url api_key : string)
    (slug project_slug : string) (version : option Z) (resp : response) :
  configured s base_url api_key →
  remote e (sent s) (the_request base_url api_key slug project_slug version) = inr resp →
  status_code resp = 403 →
  get_prompt slug project_slug version e s
  = (Raise AccessDenied, logged (the_request base_url api_key slug project_slug version) s)
  ∧ AccessDenied
    = {| exn_class := ValueError; exn_str := "Access denied to this project";
         exn_context := None |}.
Proof.
  intros Hc Hr H403. rewrite (get_prompt_status e s _ _ _ _ _ _ Hc Hr) by lia.
  by rewrite H403.
Qed.

Lemma get_prompt_status_403_witness :
  get_prompt "research-manager" "agents-lextenso" None
    (answering (inr (plain 403 "Forbidden"))) example_state
  = (Raise AccessDenied,
     logged (the_request "https://vault.example" "pk_test"
               "research-manager" "agents-lextenso" None) example_state).
Proof.
  apply (get_prompt_status_403
           (answering (inr (plain 403 "Forbidden")))
           example_state "https://vault.example" "pk_test"
           "research-manager" "agents-lextenso" None
           (plain 403 "Forbidden")
           example_state_configured eq_refl eq_refl).
Defined.

(** C4 as first stated fails: no reading of the raised exception gives back
    the project that was asked for, since two different projects raise the
    very same exception. *)
Lemma access_denied_forgets_namespace :
  ¬ ∃ extract : pyexn → string, ∀ project_slug : string,
      ∃ x : pyexn,
        fst (get_prompt "research-manager" project_slug None
               (answering (inr (plain 403 "Forbidden"))) example_state)
        = Raise x
        ∧ extract x = project_slug.
Proof.
  intros [extract Hall].
  destruct (Hall "agents-lextenso") as (x & Hx & Hex).
  destruct (Hall "billing") as (y & Hy & Hey).
  vm_compute in Hx, Hy. injection Hx as <-. injection Hy as <-.
  rewrite Hex in Hey. discriminate Hey.
Qed.

(** ** Transport failures *)

(** C8.  With both settings in place, if the one call to [requests.get]
    raises an exception of class [RequestException] or a subclass (a failed
    name lookup or a refused connection is a [ConnectionError], a timeout a
    [ConnectTimeout] or [ReadTimeout]), then [get_prompt] raises the network
    error: a plain [Exception] whose message is "Network error: " followed
    by the text of the cause and whose context is the cause itself.  It is
    none of the other error kinds, and exactly one call was made. *)
Theorem get_prompt_transport_failure (e : env) (s : state) (base_url api_key : string)
    (slug project_slug : string) (version : option Z) (cause : pyexn) :
  configured s base_url api_key →
  remote e (sent s) (the_request base_url api_key slug project_slug version) = inl cause →
  is_RequestException (exn_class cause) = true →
  get_prompt slug project_slug version e s
  = (Raise (NetworkError cause),
     logged (the_request base_url api_key slug project_slug version) s)
  ∧ exn_class (NetworkError cause) = Exception
  ∧ exn_str (NetworkError cause) = "Network error: " +:+ exn_str cause
  ∧ exn_context (NetworkError cause) = Some cause
  ∧ NetworkError cause ≠ NotConfigured
  ∧ NetworkError cause ≠ InvalidCredentials
  ∧ NetworkError cause ≠ AccessDenied
  ∧ (∀ sl pr, NetworkError cause ≠ NotFound sl pr)
  ∧ (∀ status body, NetworkError cause ≠ ApiError status body).
Proof.
  intros Hc Hr Hcls. rewrite (get_prompt_configured e s _ _ _ _ _ Hc), Hr.
  unfold answer, escapes. rewrite Hcls.
  repeat split; try done.
Qed.

Lemma get_prompt_transport_failure_witness :
  get_prompt "research-manager" "agents-lextenso" None
    (answering (inl (new_exn ConnectTimeout "Connection to vault.example timed out.")))
    example_state
  = (Raise {| exn_class := Exception;
              exn_str := "Network error: Connection to vault.example timed out.";
              exn_context :=
                Some (new_exn ConnectTimeout "Connection to vault.example timed out.") |},
     logged (the_request "https://vault.example" "pk_test"
               "research-manager" "agents-lextenso" None) example_state).
Proof.
  apply (get_prompt_transport_failure
           (answering (inl (new_exn ConnectTimeout "Connection to vault.example timed out.")))
           example_state "https://vault.example" "pk_test"
           "research-manager" "agents-lextenso" None
           (new_exn ConnectTimeout "Connection to vault.example timed out.")
           example_state_configured eq_refl eq_refl).
Defined.

Example transport_classes_caught :
  is_RequestException ConnectionError = true
  ∧ is_RequestException ConnectTimeout = true
  ∧ is_RequestException ReadTimeout = true
  ∧ is_RequestException Timeout = true.
Proof. done. Qed.

(** ** The version parameter *)

(** C6.  With both settings in place, [get_prompt] makes one call whose
    parameters hold [projectSlug] first; the [version] entry is present
    exactly when the [version] argument is truthy (given and not zero), and
    then it follows [projectSlug] and holds that number; when [version] is
    omitted the parameters are the [projectSlug] entry alone. *)
Theorem get_prompt_version_param (e : env) (s : state) (base_url api_key : string)
    (slug project_slug : string) (version : option Z) :
  configured s base_url api_key →
  ∃ req : request,
    sent (snd (get_prompt slug project_slug version e s)) = sent s ++ [req]
    ∧ url req = base_url +:+ "/api/prompts/" +:+ slug
    ∧ dict_get (params req) "projectSlug" = Some (PrmStr project_slug)
    ∧ (is_Some (dict_get (params req) "version") ↔ truthy_int version = true)
    ∧ (∀ v, version = Some v → v ≠ 0 →
         params req = [("projectSlug", PrmStr project_slug); ("version", PrmInt v)])
    ∧ (version = None → params req = [("projectSlug", PrmStr project_slug)])
    ∧ (version = Some 0 → params req = [("projectSlug", PrmStr project_slug)]).
Proof.
  intros Hc. exists (the_request base_url api_key slug project_slug version).
  rewrite (get_prompt_configured e s _ _ _ _ _ Hc). cbn [snd logged sent].
  split; [done|]. split; [done|]. split; [done|].
  cbn [the_request params]. unfold query. split; [|split; [|split]].
  - destruct version as [v|]; cbn [truthy_int].
    + destruct (v =? 0); cbn [dict_get String.eqb]; simpl.
      * split; [by intros [? ?]|done].
      * split; [done|by eexists].
    + simpl. split; [by intros [? ?]|done].
  - intros v -> Hv. by rewrite (proj2 (Z.eqb_neq _ _) Hv).
  - by intros ->.
  - by intros ->.
Qed.

Lemma get_prompt_version_param_witness :
  ∃ req : request,
    sent (snd (get_prompt "research-manager" "agents-lextenso" (Some 2)
                 (answering (inr (ok_json PNone))) example_state))
    = sent example_state ++ [req]
    ∧ params req = [("projectSlug", PrmStr "agents-lextenso"); ("version", PrmInt 2)].
Proof.
  destruct (get_prompt_version_param (answering (inr (ok_json PNone)))
              example_state "https://vault.example" "pk_test"
              "research-manager" "agents-lextenso" (Some 2)
              example_state_configured)
    as (req & Hsent & _ & _ & _ & Hv & _).
  exists req. split; [exact Hsent|]. by apply (Hv 2).
Defined.

Example version_examples :
  sent (snd (get_prompt "research-manager" "agents-lextenso" (Some 2)
               (answering (inr (ok_json PNone))) example_state))
  = [ {| url := "https://vault.example/api/prompts/research-manager";
         headers := [("x-api-key", Some "pk_test")];
         params := [("projectSlug", PrmStr "agents-lextenso"); ("version", PrmInt 2)];
         timeout := 10 |} ]
  ∧ sent (snd (get_prompt "research-manager" "agents-lextenso" None
                 (answering (inr (ok_json PNone))) example_state))
  = [ {| url := "https://vault.example/api/prompts/research-manager";
         headers := [("x-api-key", Some "pk_test")];
         params := [("projectSlug", PrmStr "agents-lextenso")];
         timeout := 10 |} ]
  ∧ params (the_request "b" "k" "s" "p" (Some 0)) = [("projectSlug", PrmStr "p")].
Proof. by vm_compute. Qed.

(** ** Status 200 without a usable [content] *)

Lemma documented_class (x : pyexn) :
  documented x → exn_class x = ValueError ∨ exn_class x = Exception.
Proof.
  intros [-> | [-> | [-> | [(? & ? & ->) | [(? & ? & ->) | (? & ->)]]]]];
    by (left + right).
Qed.

(** C10, as amended.  With both settings in place and the call answered
    with status 200 and a body that decodes, if the decoded body is an
    object without a [content] entry then [get_prompt] raises [KeyError],
    and if it is not an object (an array, a string, a number, a boolean or
    null) then it raises [TypeError].  Either way nothing is returned, the
    exception has no context and is none of the documented error kinds, and
    exactly one call was made. *)
Theorem get_prompt_200_without_content (e : env) (s : state)
    (base_url api_key : string) (slug project_slug : string) (version : option Z)
    (resp : response) (body : pyval) :
  configured s base_url api_key →
  remote e (sent s) (the_request base_url api_key slug project_slug version) = inr resp →
  status_code resp = 200 →
  json resp = inr body →
  (∀ d, body = PDict d → d !! "content" = None) →
  ∃ x : pyexn,
    get_prompt slug project_slug version e s
    = (Raise x, logged (the_request base_url api_key slug project_slug version) s)
    ∧ exn_class x = lookup_failure body
    ∧ exn_context x = None
    ∧ ¬ documented x.
Proof.
  intros Hc Hr Hst Hj Hlacks. rewrite (get_prompt_configured e s _ _ _ _ _ Hc), Hr.
  unfold answer. rewrite Hst, Hj. cbn [Z.eqb Pos.eqb].
  destruct body as [| | | | | |d];
    try (eexists; split; [reflexivity|]; split; [reflexivity|];
         split; [reflexivity|]; by intros [?|?]%documented_class).
  rewrite (Hlacks d eq_refl).
  eexists; split; [reflexivity|]; split; [reflexivity|];
    split; [reflexivity|]; by intros [?|?]%documented_class.
Qed.

Lemma get_prompt_200_without_content_witness :
  ∃ x : pyexn,
    get_prompt "research-manager" "agents-lextenso" None
      (answering (inr (ok_json (PDict {[ "error" := PStr "gone" ]})))) example_state
    = (Raise x,
       logged (the_request "https://vault.example" "pk_test"
                 "research-manager" "agents-lextenso" None) example_state)
    ∧ exn_class x = KeyError.
Proof.
  destruct (get_prompt_200_without_content
              (answering (inr (ok_json (PDict {[ "error" := PStr "gone" ]}))))
              example_state "https://vault.example" "pk_test"
              "research-manager" "agents-lextenso" None
              (ok_json (PDict {[ "error" := PStr "gone" ]}))
              (PDict {[ "error" := PStr "gone" ]})
              example_state_configured eq_refl eq_refl eq_refl)
    as (x & Hrun & Hcls & _).
  - intros d [= <-]. reflexivity.
  - exists x. split; [exact Hrun | exact Hcls].
Defined.

(** C10 as first stated fails for a body that is not an object: a JSON
    array makes the subscript raise [TypeError], not [KeyError]. *)
Lemma array_body_raises_type_error :
  fst (get_prompt "research-manager" "agents-lextenso" None
         (answering (inr (ok_json (PList [])))) example_state)
  = Raise (new_exn TypeError "list indices must be integers or slices, not str")
  ∧ exn_class (new_exn TypeError "list indices must be integers or slices, not str")
    ≠ KeyError.
Proof. by vm_compute. Qed.

Example missing_content_examples :
  fst (get_prompt "research-manager" "agents-lextenso" None
         (answering (inr (ok_json (PDict ∅)))) example_state)
  = Raise (new_exn KeyError "'content'")
  ∧ fst (get_prompt "research-manager" "agents-lextenso" None
           (answering (inr (ok_json (PStr "content")))) example_state)
  = Raise (new_exn TypeError "string indices must be integers")
  ∧ fst (get_prompt "research-manager" "agents-lextenso" None
           (answering (inr (ok_json PNone))) example_state)
  = Raise (new_exn TypeError "'NoneType' object is not subscriptable")
  ∧ fst (get_prompt "research-manager" "agents-lextenso" None
           (answering (inr (ok_json (PDict {[ "content" := PInt 7 ]})))) example_state)
  = Return (PInt 7).
Proof. by vm_compute. Qed.

(** ** Dotted access *)

Lemma replace_length (old new : ascii) (s : string) :
  String.length (replace old new s) = String.length s.
Proof. induction s as [|c s IH]; [done|]. simpl. by rewrite IH. Qed.

Lemma replace_get (old new : ascii) (s : string) (i : nat) :
  String.get i (replace old new s)
  = (λ c, if Ascii.eqb c old then new else c) <$> String.get i s.
Proof.
  revert i. induction s as [|c s IH]; intros i; [done|].
  destruct i as [|i]; [done|]. apply IH.
Qed.

Lemma replace_removes (old new : ascii) (s : string) :
  old ≠ new → in_chars old (replace old new s) = false.
Proof.
  intros Hne. induction s as [|c s IH]; [done|].
  cbn [replace in_chars]. rewrite IH.
  destruct (Ascii.eqb c old) eqn:Ec.
  - by rewrite (proj2 (Ascii.eqb_neq _ _) Hne).
  - by rewrite Ascii.eqb_sym, Ec.
Qed.

(** C5, as amended.  For attribute names [n] and [m] that ordinary lookup
    does not already resolve ([n] is not [configure], [get_prompt],
    [__getattr__] or a name every instance inherits; [m] is not
    [_project_slug], [__init__], [__getattr__] or an inherited name), the
    expression [promptvault.n.m] behaves as [get_prompt(m', n')] called
    without a version, where [n'] and [m'] are [n] and [m] with each
    underscore turned into a hyphen: same outcome, same state.  With both
    settings in place the one call it makes asks for slug [m'] and carries
    the single parameter [projectSlug = n']. *)
Theorem dotted_access_is_get_prompt (e : env) (s : state) (n m : string) :
  PromptVaultModule.has_attr e n = false →
  PromptProxy.has_attr e m = false →
  dotted n m e s
  = (v <- get_prompt (replace "_" "-" m) (replace "_" "-" n) None ;; ret (Value v)) e s
  ∧ String.length (replace "_" "-" n) = String.length n
  ∧ String.length (replace "_" "-" m) = String.length m
  ∧ (∀ i, String.get i (replace "_" "-" n)
          = (λ c, if Ascii.eqb c "_" then "-"%char else c) <$> String.get i n)
  ∧ (∀ i, String.get i (replace "_" "-" m)
          = (λ c, if Ascii.eqb c "_" then "-"%char else c) <$> String.get i m)
  ∧ ∀ base_url api_key, configured s base_url api_key →
      sent (snd (dotted n m e s))
      = sent s ++ [ {| url := base_url +:+ "/api/prompts/" +:+ replace "_" "-" m;
                       headers := [("x-api-key", Some api_key)];
                       params := [("projectSlug", PrmStr (replace "_" "-" n))];
                       timeout := 10 |} ].
Proof.
  intros Hn Hm.
  assert (Hrun : dotted n m e s
    = (v <- get_prompt (replace "_" "-" m) (replace "_" "-" n) None ;; ret (Value v)) e s).
  { unfold PromptVaultModule.has_attr in Hn. unfold PromptProxy.has_attr in Hm.
    apply orb_false_iff in Hm as [Hm Hm3]. apply orb_false_iff in Hm as [Hm1 Hm2].
    unfold dotted, bind, PromptVaultModule.getattr. rewrite Hn. cbn [ret].
    unfold PromptProxy.getattr. rewrite Hm1, Hm2, Hm3. reflexivity. }
  split; [exact Hrun|].
  split; [apply replace_length|]. split; [apply replace_length|].
  split; [intros i; apply replace_get|]. split; [intros i; apply replace_get|].
  intros base_url api_key Hc. rewrite Hrun. unfold bind.
  rewrite (get_prompt_configured e s _ _ _ _ _ Hc).
  by destruct (answer _ _ _).
Qed.

Lemma dotted_access_is_get_prompt_witness :
  dotted "agents_lextenso" "research_manager"
    (answering (inr (ok_json (PDict {[ "content" := PStr "X" ]})))) example_state
  = (v <- get_prompt "research-manager" "agents-lextenso" None ;; ret (Value v))
      (answering (inr (ok_json (PDict {[ "content" := PStr "X" ]})))) example_state.
Proof.
  apply (dotted_access_is_get_prompt
           (answering (inr (ok_json (PDict {[ "content" := PStr "X" ]}))))
           example_state "agents_lextenso" "research_manager");
    reflexivity.
Defined.

Example dotted_access_example :
  dotted "agents_lextenso" "research_manager"
    (answering (inr (ok_json (PDict {[ "content" := PStr "X" ]})))) example_state
  = (Return (Value (PStr "X")),
     {| _config := _config example_state;
        sent := [ {| url := "https://vault.example/api/prompts/research-manager";
                     headers := [("x-api-key", Some "pk_test")];
                     params := [("projectSlug", PrmStr "agents-lextenso")];
                     timeout := 10 |} ] |}).
Proof. reflexivity. Qed.

(** C5 as first stated fails for [m = _project_slug]: every [PromptProxy]
    instance has that attribute, so [promptvault.agents_lextenso._project_slug]
    is the stored project name, obtained without any request, whereas
    [get_prompt("-project-slug", "agents-lextenso")] makes a request and
    returns what the remote end sent. *)
Lemma dotted_project_slug_is_no_fetch :
  dotted "agents_lextenso" "_project_slug"
    (answering (inr (ok_json (PDict {[ "content" := PStr "X" ]})))) example_state
  = (Return (Value (PStr "agents-lextenso")), example_state)
  ∧ get_prompt "-project-slug" "agents-lextenso" None
      (answering (inr (ok_json (PDict {[ "content" := PStr "X" ]})))) example_state
  = (Return (PStr "X"),
     logged (the_request "https://vault.example" "pk_test"
               "-project-slug" "agents-lextenso" None) example_state)
  ∧ dotted "agents_lextenso" "_project_slug"
      (answering (inr (ok_json (PDict {[ "content" := PStr "X" ]})))) example_state
    ≠ (v <- get_prompt "-project-slug" "agents-lextenso" None ;; ret (Value v))
        (answering (inr (ok_json (PDict {[ "content" := PStr "X" ]})))) example_state.
Proof. by vm_compute. Qed.

Example dotted_method_names :
  fst (dotted "configure" "research_manager"
         (answering (inr (ok_json PNone))) example_state)
  = Return (Opaque ["configure"; "research_manager"])
  ∧ fst (dotted "get_prompt" "x" (answering (inr (ok_json PNone))) example_state)
  = Return (Opaque ["get_prompt"; "x"])
  ∧ fst (dotted "__foo__" "x" (answering (inr (ok_json PNone))) initial_state)
  = Raise NotConfigured.
Proof. by vm_compute. Qed.

(** * Further properties of the module *)

(** ** What a fetch does to the state *)

Lemma get_prompt_guard (e : env) (s : state)
    (slug project_slug : string) (version : option Z) :
  (∃ x, get_prompt slug project_slug version e s = (Raise x, s))
  ∨ (∃ base_url api_key, configured s base_url api_key).
Proof.
  destruct (_config s !! "base_url") as [vb|] eqn:Hb.
  - destruct (truthy_str vb) eqn:Tb.
    + destruct (_config s !! "api_key") as [vk|] eqn:Hk.
      * destruct (truthy_str vk) eqn:Tk.
        -- right. destruct vb as [[|b0 b]|]; try done.
           destruct vk as [[|k0 k]|]; try done.
           by exists (String b0 b), (String k0 k).
        -- left. exists NotConfigured.
           apply (get_prompt_unconfigured e s vb vk); [done..|].
           by rewrite Tk, andb_false_r.
      * left. eexists. unfold get_prompt, bind.
        rewrite (config_get_run e s _ _ Hb), Tb. cbn [negb].
        unfold config_get at 1. rewrite Hk. reflexivity.
    + destruct (_config s !! "api_key") as [vk|] eqn:Hk.
      * left. exists NotConfigured.
        apply (get_prompt_unconfigured e s vb vk); [done..|]. by rewrite Tb.
      * left. eexists. unfold get_prompt, bind.
        rewrite (config_get_run e s _ _ Hb), Tb. reflexivity.
  - left. eexists. unfold get_prompt, bind, config_get. rewrite Hb. reflexivity.
Qed.

Lemma get_prompt_state (e : env) (s : state)
    (slug project_slug : string) (version : option Z) :
  snd (get_prompt slug project_slug version e s) = s
  ∨ ∃ req, snd (get_prompt slug project_slug version e s) = logged req s.
Proof.
  destruct (get_prompt_guard e s slug project_slug version)
    as [[x Hx] | (b & k & Hc)].
  - rewrite Hx. by left.
  - rewrite (get_prompt_configured e s b k _ _ _ Hc). right. by eexists.
Qed.

(** X1. Whatever the state, the arguments and the remote end, [get_prompt]
    leaves [_config] as it found it and either leaves the request log alone
    or appends exactly one call to it. *)
Theorem get_prompt_reads_config_one_call (e : env) (s : state)
    (slug project_slug : string) (version : option Z) :
  _config (snd (get_prompt slug project_slug version e s)) = _config s
  ∧ (sent (snd (get_prompt slug project_slug version e s)) = sent s
     ∨ ∃ req, sent (snd (get_prompt slug project_slug version e s)) = sent s ++ [req]).
Proof.
  destruct (get_prompt_state e s slug project_slug version) as [-> | [req ->]].
  - split; [done|by left].
  - split; [done|]. right. by exists req.
Qed.

(** X2. [get_prompt] returns a value only one way: both settings were in
    place, the call was answered with status 200, the body decoded to an
    object, and the value returned is that object's [content] entry. *)
Theorem get_prompt_return_inversion (e : env) (s : state)
    (slug project_slug : string) (version : option Z) (v : pyval) :
  fst (get_prompt slug project_slug version e s) = Return v →
  ∃ base_url api_key resp d,
    configured s base_url api_key
    ∧ remote e (sent s) (the_request base_url api_key slug project_slug version)
      = inr resp
    ∧ status_code resp = 200
    ∧ json resp = inr (PDict d)
    ∧ d !! "content" = Some v.
Proof.
  intros Hret.
  destruct (get_prompt_guard e s slug project_slug version)
    as [[x Hx] | (b & k & Hc)].
  { by rewrite Hx in Hret. }
  rewrite (get_prompt_configured e s b k _ _ _ Hc) in Hret. cbn [fst] in Hret.
  exists b, k. unfold answer, escapes in Hret.
  destruct (remote e (sent s) _) as [x|resp] eqn:Hr.
  { by destruct (is_RequestException (exn_class x)). }
  exists resp. destruct (status_code resp =? 200) eqn:Hst.
  - apply Z.eqb_eq in Hst. destruct (json resp) as [x|body] eqn:Hj.
    { by destruct (is_RequestException (exn_class x)). }
    destruct body as [| | | | | |d]; try done.
    exists d. destruct (d !! "content") as [w|] eqn:Hd; [|done].
    by injection Hret as ->.
  - destruct (status_code resp =? 401); [done|].
    destruct (status_code resp =? 404); [done|].
    by destruct (status_code resp =? 403).
Qed.

Lemma get_prompt_return_inversion_witness :
  ∃ base_url api_key resp d,
    configured example_state base_url api_key
    ∧ remote (answering (inr (ok_json (PDict {[ "content" := PStr "X" ]}))))
        (sent example_state)
        (the_request base_url api_key "research-manager" "agents-lextenso" None)
      = inr resp
    ∧ status_code resp = 200
    ∧ json resp = inr (PDict d)
    ∧ d !! "content" = Some (PStr "X").
Proof.
  apply (get_prompt_return_inversion
           (answering (inr (ok_json (PDict {[ "content" := PStr "X" ]}))))
           example_state "research-manager" "agents-lextenso" None (PStr "X")).
  reflexivity.
Defined.

(** ** [configure] followed by a fetch *)

Lemma repeat_char_snoc (c : ascii) (n : nat) :
  repeat_char c (S n) = repeat_char c n +:+ String c "".
Proof.
  induction n as [|n IH]; [done|].
  transitivity (String c (repeat_char c n +:+ String c "")); [|reflexivity].
  change (repeat_char c (S (S n))) with (String c (repeat_char c (S n))).
  by f_equal.
Qed.

Lemma rstrip_slash_fixed (s : string) : ¬ ends_with "/" s → rstrip "/" s = s.
Proof.
  intros Hend. destruct (rstrip_slash_split s) as [[|n] Hs].
  - rewrite str_app_nil_r in Hs. done.
  - destruct Hend. exists (rstrip "/" s +:+ repeat_char "/" n).
    rewrite str_app_assoc, <- repeat_char_snoc. exact Hs.
Qed.

Lemma rstrip_slash_idem (s : string) : rstrip "/" (rstrip "/" s) = rstrip "/" s.
Proof. apply rstrip_slash_fixed, rstrip_slash_tight. Qed.

Lemma rstrip_slashes (n : nat) : rstrip "/" (repeat_char "/" n) = "".
Proof. induction n as [|n IH]; [done|]. cbn [repeat_char rstrip]. by rewrite IH. Qed.

Lemma rstrip_slash_empty (s : string) :
  rstrip "/" s = "" ↔ ∃ n, s = repeat_char "/" n.
Proof.
  split.
  - intros Hs. destruct (rstrip_slash_split s) as [n Hn]. exists n.
    by rewrite Hs, str_app_nil in Hn.
  - intros [n ->]. apply rstrip_slashes.
Qed.

Lemma configure_configured (e : env) (s : state) (base_url api_key : string) :
  rstrip "/" base_url ≠ "" → api_key ≠ "" →
  configured (snd (configure base_url api_key e s)) (rstrip "/" base_url) api_key.
Proof.
  intros Hb Hk. rewrite configure_run. unfold configured. cbn [snd _config].
  split; [|split; [done|split; [|done]]].
  - rewrite lookup_insert_ne by done. apply lookup_insert_eq.
  - apply lookup_insert_eq.
Qed.

(** X3. After [configure(base_url, api_key)] with a [base_url] that is not
    made of slashes only and a non-empty key, a fetch makes one call: to the
    stored stem followed by [/api/prompts/] and the slug, where the stem is
    [base_url] minus its trailing slashes and does not end in a slash (so the
    join never doubles the slash); the key travels as the [x-api-key] header
    and the timeout is 10. *)
Theorem configure_then_get_prompt (e : env) (s : state) (base_url api_key : string)
    (slug project_slug : string) (version : option Z) :
  rstrip "/" base_url ≠ "" → api_key ≠ "" →
  ∃ (req : request) (stem : string) (n : nat),
    sent (snd (get_prompt slug project_slug version e
                 (snd (configure base_url api_key e s))))
    = sent s ++ [req]
    ∧ base_url = stem +:+ repeat_char "/" n
    ∧ ¬ ends_with "/" stem
    ∧ url req = stem +:+ "/api/prompts/" +:+ slug
    ∧ headers req = [("x-api-key", Some api_key)]
    ∧ timeout req = 10.
Proof.
  intros Hb Hk. destruct (rstrip_slash_split base_url) as [n Hn].
  exists (the_request (rstrip "/" base_url) api_key slug project_slug version),
    (rstrip "/" base_url), n.
  rewrite (get_prompt_configured e _ _ _ _ _ _ (configure_configured e s _ _ Hb Hk)).
  split; [done|]. split; [exact Hn|]. split; [apply rstrip_slash_tight|done].
Qed.

Lemma configure_then_get_prompt_witness :
  ∃ (req : request) (stem : string) (n : nat),
    sent (snd (get_prompt "research-manager" "agents-lextenso" None
                 (answering (inr (ok_json PNone)))
                 (snd (configure "https://vault.example//" "pk_test"
                         (answering (inr (ok_json PNone))) initial_state))))
    = sent initial_state ++ [req]
    ∧ "https://vault.example//" = stem +:+ repeat_char "/" n
    ∧ ¬ ends_with "/" stem
    ∧ url req = stem +:+ "/api/prompts/" +:+ "research-manager"
    ∧ headers req = [("x-api-key", Some "pk_test")]
    ∧ timeout req = 10.
Proof.
  apply (configure_then_get_prompt (answering (inr (ok_json PNone))) initial_state
           "https://vault.example//" "pk_test"
           "research-manager" "agents-lextenso" None);
    by vm_compute.
Defined.

(** X4. After [configure(base_url, api_key)] a fetch is stopped by the
    not-configured guard, with no call made, exactly when [base_url] consists
    of slashes only (the empty string included) or [api_key] is empty. *)
Theorem configure_guard_iff (e : env) (s : state) (base_url api_key : string)
    (slug project_slug : string) (version : option Z) :
  get_prompt slug project_slug version e (snd (configure base_url api_key e s))
  = (Raise NotConfigured, snd (configure base_url api_key e s))
  ↔ (∃ n, base_url = repeat_char "/" n) ∨ api_key = "".
Proof.
  rewrite <- rstrip_slash_empty. split.
  - intros Hrun.
    destruct (decide (rstrip "/" base_url = "")) as [|Hb]; [by left|].
    destruct (decide (api_key = "")) as [|Hk]; [by right|].
    rewrite (get_prompt_configured e _ _ _ _ _ _ (configure_configured e s _ _ Hb Hk))
      in Hrun.
    exact (False_ind _ (logged_neq _ _ (f_equal snd Hrun))).
  - intros Hfalsy. rewrite configure_run. cbn [snd].
    eapply get_prompt_unconfigured; cbn [_config].
    + rewrite lookup_insert_ne by done. apply lookup_insert_eq.
    + apply lookup_insert_eq.
    + destruct Hfalsy as [-> | ->]; [done|]. apply andb_false_r.
Qed.

Example configure_slashes_only :
  fst (get_prompt "research-manager" "agents-lextenso" None
         (answering (inr (ok_json PNone)))
         (snd (configure "//" "pk_test" (answering (inr (ok_json PNone))) initial_state)))
  = Raise NotConfigured.
Proof. reflexivity. Qed.

(** X5. A [base_url] that does not end in a slash is stored exactly as
    given. *)
Theorem configure_keeps_clean_url (e : env) (s : state) (base_url api_key : string) :
  ¬ ends_with "/" base_url →
  _config (snd (configure base_url api_key e s)) !! "base_url" = Some (Some base_url).
Proof.
  intros Hend. rewrite configure_run. cbn [snd _config].
  rewrite lookup_insert_ne by done. rewrite lookup_insert_eq.
  by rewrite rstrip_slash_fixed.
Qed.

Lemma not_ends_with_example : ¬ ends_with "/" "https://vault.example".
Proof.
  change "https://vault.example" with (rstrip "/" "https://vault.example").
  apply rstrip_slash_tight.
Qed.

Lemma configure_keeps_clean_url_witness :
  _config (snd (configure "https://vault.example" "pk_test"
                  (answering (inr (ok_json PNone))) initial_state)) !! "base_url"
  = Some (Some "https://vault.example").
Proof.
  apply (configure_keeps_clean_url (answering (inr (ok_json PNone))) initial_state
           "https://vault.example" "pk_test").
  exact not_ends_with_example.
Defined.

(** X6. Passing the stored [base_url] to [configure] again stores the same
    value: stripping is idempotent, so [configure] with the stripped URL and
    [configure] with the original one lead to the same state. *)
Theorem configure_stripped_same (e : env) (s : state) (base_url api_key : string) :
  configure (rstrip "/" base_url) api_key e s = configure base_url api_key e s.
Proof. rewrite !configure_run. by rewrite rstrip_slash_idem. Qed.

(** ** Repeated fetches *)

Lemma logged_configured (r : request) (s : state) (base_url api_key : string) :
  configured s base_url api_key → configured (logged r s) base_url api_key.
Proof. done. Qed.

(** X7. Nothing is cached: with both settings in place, two fetches in a
    row make two calls, in order, and the second call is made whatever the
    first one produced; asking twice for the same prompt therefore sends the
    same request twice. *)
Theorem get_prompt_twice_two_calls (e : env) (s : state) (base_url api_key : string)
    (slug1 project1 : string) (version1 : option Z)
    (slug2 project2 : string) (version2 : option Z) :
  configured s base_url api_key →
  sent (snd (get_prompt slug2 project2 version2 e
               (snd (get_prompt slug1 project1 version1 e s))))
  = sent s ++ [the_request base_url api_key slug1 project1 version1;
               the_request base_url api_key slug2 project2 version2].
Proof.
  intros Hc. rewrite (get_prompt_configured e s _ _ _ _ _ Hc). cbn [snd].
  rewrite (get_prompt_configured e _ _ _ _ _ _ (logged_configured _ s _ _ Hc)).
  cbn [snd logged sent]. by rewrite <- app_assoc.
Qed.

Lemma get_prompt_twice_two_calls_witness :
  sent (snd (get_prompt "research-manager" "agents-lextenso" None
               (answering (inr (plain 500 "down")))
               (snd (get_prompt "research-manager" "agents-lextenso" None
                       (answering (inr (plain 500 "down"))) example_state))))
  = sent example_state
    ++ [the_request "https://vault.example" "pk_test"
          "research-manager" "agents-lextenso" None;
        the_request "https://vault.example" "pk_test"
          "research-manager" "agents-lextenso" None].
Proof.
  apply (get_prompt_twice_two_calls (answering (inr (plain 500 "down")))
           example_state "https://vault.example" "pk_test"
           "research-manager" "agents-lextenso" None
           "research-manager" "agents-lextenso" None
           example_state_configured).
Defined.

(** ** Dotted access, continued *)

Lemma dotted_unresolved (e : env) (s : state) (n m : string) :
  PromptVaultModule.has_attr e n = false →
  PromptProxy.has_attr e m = false →
  dotted n m e s
  = (v <- get_prompt (replace "_" "-" m) (replace "_" "-" n) None ;; ret (Value v)) e s.
Proof.
  unfold PromptVaultModule.has_attr, PromptProxy.has_attr. intros Hn Hm.
  apply orb_false_iff in Hm as [Hm Hm3]. apply orb_false_iff in Hm as [Hm1 Hm2].
  unfold dotted, bind, PromptVaultModule.getattr. rewrite Hn. cbn [ret].
  unfold PromptProxy.getattr. by rewrite Hm1, Hm2, Hm3.
Qed.

Lemma bind_ret_state {A B} (m : M A) (f : A → B) (e : env) (s : state) :
  snd ((v <- m ;; ret (f v)) e s) = snd (m e s).
Proof. unfold bind, ret. by destruct (m e s) as [[a|x] s']. Qed.

Lemma dotted_state (e : env) (s : state) (n m : string) :
  snd (dotted n m e s) = s
  ∨ snd (dotted n m e s)
    = snd (get_prompt (replace "_" "-" m) (replace "_" "-" n) None e s).
Proof.
  unfold dotted, bind, PromptVaultModule.getattr.
  destruct (bool_decide (n ∈ PromptVaultModule.class_attrs) || inherited e n);
    cbn [ret]; [by left|].
  unfold PromptProxy.getattr.
  destruct (String.eqb m "_project_slug"); [by left|].
  destruct (bool_decide (m ∈ PromptProxy.class_attrs) || inherited e m); [by left|].
  right. apply (bind_ret_state _ Value).
Qed.

(** X8. A request made by [promptvault.n.m] never has an underscore in the
    slug or in the project: whatever [n] and [m] are, every call the access
    adds to the log (with both settings in place) asks for a slug without
    underscore and carries the single parameter [projectSlug] with a value
    without underscore.  Prompts or projects whose real name contains an
    underscore are out of reach of the dotted form. *)
Theorem dotted_never_sends_underscore (e : env) (s : state)
    (base_url api_key : string) (n m : string) :
  configured s base_url api_key →
  sent (snd (dotted n m e s)) = sent s
  ∨ ∃ slug project_slug,
      sent (snd (dotted n m e s))
      = sent s ++ [ {| url := base_url +:+ "/api/prompts/" +:+ slug;
                       headers := [("x-api-key", Some api_key)];
                       params := [("projectSlug", PrmStr project_slug)];
                       timeout := 10 |} ]
      ∧ in_chars "_" slug = false
      ∧ in_chars "_" project_slug = false.
Proof.
  intros Hc. destruct (dotted_state e s n m) as [-> | ->]; [by left|].
  right. exists (replace "_" "-" m), (replace "_" "-" n).
  rewrite (get_prompt_configured e s _ _ _ _ _ Hc).
  split; [done|]. split; by apply replace_removes.
Qed.

Lemma dotted_never_sends_underscore_witness :
  sent (snd (dotted "agents_lextenso" "research_manager"
               (answering (inr (ok_json PNone))) example_state))
  = sent example_state
  ∨ ∃ slug project_slug,
      sent (snd (dotted "agents_lextenso" "research_manager"
                   (answering (inr (ok_json PNone))) example_state))
      = sent example_state
        ++ [ {| url := "https://vault.example" +:+ "/api/prompts/" +:+ slug;
                headers := [("x-api-key", Some "pk_test")];
                params := [("projectSlug", PrmStr project_slug)];
                timeout := 10 |} ]
      ∧ in_chars "_" slug = false
      ∧ in_chars "_" project_slug = false.
Proof.
  apply (dotted_never_sends_underscore (answering (inr (ok_json PNone)))
           example_state "https://vault.example" "pk_test"
           "agents_lextenso" "research_manager" example_state_configured).
Defined.

(** The first level of the dotted form is inert: [promptvault.n] returns
    for every name and every state and leaves the state alone; only the
    second level fetches. *)
Lemma first_level_is_inert (e : env) (s : state) (n : string) :
  (∃ o, PromptVaultModule.getattr n e s = (Return o, s))
  ∧ (PromptVaultModule.has_attr e n = false →
     PromptVaultModule.getattr n e s = (Return (ProxyObj (replace "_" "-" n)), s)).
Proof.
  unfold PromptVaultModule.getattr, PromptVaultModule.has_attr. split.
  - destruct (bool_decide (n ∈ PromptVaultModule.class_attrs) || inherited e n);
      by eexists.
  - by intros ->.
Qed.

(** X9. Before any [configure], [promptvault.n.m] raises the not-configured
    error at the moment of the attribute access, with no call made, for all
    names that ordinary lookup does not resolve. *)
Theorem dotted_before_configure (e : env) (log : list request) (n m : string) :
  PromptVaultModule.has_attr e n = false →
  PromptProxy.has_attr e m = false →
  dotted n m e {| _config := initial_config; sent := log |}
  = (Raise NotConfigured, {| _config := initial_config; sent := log |}).
Proof.
  intros Hn Hm. rewrite (dotted_unresolved e _ n m Hn Hm). unfold bind.
  by rewrite (get_prompt_unconfigured e {| _config := initial_config; sent := log |}
                None None _ _ _
                initial_config_base_url initial_config_api_key eq_refl).
Qed.

Lemma dotted_before_configure_witness :
  dotted "agents_lextenso" "research_manager" (answering (inr (ok_json PNone)))
    {| _config := initial_config; sent := [] |}
  = (Raise NotConfigured, {| _config := initial_config; sent := [] |}).
Proof.
  apply (dotted_before_configure (answering (inr (ok_json PNone))) []
           "agents_lextenso" "research_manager");
    reflexivity.
Defined.

(** ** Exceptions that are not the module's own *)

(** X10. When the response has status 200 but [response.json()] raises, the
    outcome depends on the class of that exception: one from the
    [RequestException] hierarchy (the [JSONDecodeError] of recent [requests])
    is reported as a network error wrapping it, although the transport
    worked; any other (the [ValueError] of older [requests]) leaves
    [get_prompt] unchanged. *)
Theorem get_prompt_undecodable_body (e : env) (s : state) (base_url api_key : string)
    (slug project_slug : string) (version : option Z) (resp : response) (x : pyexn) :
  configured s base_url api_key →
  remote e (sent s) (the_request base_url api_key slug project_slug version) = inr resp →
  status_code resp = 200 →
  json resp = inl x →
  get_prompt slug project_slug version e s
  = (Raise (if is_RequestException (exn_class x) then NetworkError x else x),
     logged (the_request base_url api_key slug project_slug version) s).
Proof.
  intros Hc Hr Hst Hj. rewrite (get_prompt_configured e s _ _ _ _ _ Hc), Hr.
  unfold answer, escapes. rewrite Hst, Hj. cbn [Z.eqb Pos.eqb].
  by destruct (is_RequestException (exn_class x)).
Qed.

Lemma get_prompt_undecodable_body_witness :
  get_prompt "research-manager" "agents-lextenso" None
    (answering (inr (plain 200 "<html>"))) example_state
  = (Raise {| exn_class := Exception;
              exn_str := "Network error: Expecting value: line 1 column 1 (char 0)";
              exn_context :=
                Some (new_exn JSONDecodeError "Expecting value: line 1 column 1 (char 0)") |},
     logged (the_request "https://vault.example" "pk_test"
               "research-manager" "agents-lextenso" None) example_state).
Proof.
  apply (get_prompt_undecodable_body (answering (inr (plain 200 "<html>")))
           example_state "https://vault.example" "pk_test"
           "research-manager" "agents-lextenso" None
           (plain 200 "<html>")
           (new_exn JSONDecodeError "Expecting value: line 1 column 1 (char 0)")
           example_state_configured eq_refl eq_refl eq_refl).
Defined.

(** X11. An exception raised by [requests.get] that is not a
    [RequestException] is not caught: [get_prompt] raises that very
    exception, with no wrapping and no added context. *)
Theorem get_prompt_foreign_exception (e : env) (s : state) (base_url api_key : string)
    (slug project_slug : string) (version : option Z) (x : pyexn) :
  configured s base_url api_key →
  remote e (sent s) (the_request base_url api_key slug project_slug version) = inl x →
  is_RequestException (exn_class x) = false →
  get_prompt slug project_slug version e s
  = (Raise x, logged (the_request base_url api_key slug project_slug version) s).
Proof.
  intros Hc Hr Hcls. rewrite (get_prompt_configured e s _ _ _ _ _ Hc), Hr.
  unfold answer, escapes. by rewrite Hcls.
Qed.

Lemma get_prompt_foreign_exception_witness :
  get_prompt "research-manager" "agents-lextenso" None
    (answering (inl (new_exn TypeError "unhashable type"))) example_state
  = (Raise (new_exn TypeError "unhashable type"),
     logged (the_request "https://vault.example" "pk_test"
               "research-manager" "agents-lextenso" None) example_state).
Proof.
  apply (get_prompt_foreign_exception
           (answering (inl (new_exn TypeError "unhashable type")))
           example_state "https://vault.example" "pk_test"
           "research-manager" "agents-lextenso" None
           (new_exn TypeError "unhashable type")
           example_state_configured eq_refl eq_refl).
Defined.

(** X12. For a status other than 200 the decoded body is never consulted,
    and for 401, 403 and 404 the body text is not either: two responses with
    the same such status give the same outcome, whatever their bodies. *)
Theorem get_prompt_ignores_body (e1 e2 : env) (s : state) (base_url api_key : string)
    (slug project_slug : string) (version : option Z) (r1 r2 : response) :
  configured s base_url api_key →
  remote e1 (sent s) (the_request base_url api_key slug project_slug version) = inr r1 →
  remote e2 (sent s) (the_request base_url api_key slug project_slug version) = inr r2 →
  status_code r1 = status_code r2 →
  status_code r1 ≠ 200 →
  status_code r1 = 401 ∨ status_code r1 = 403 ∨ status_code r1 = 404
  ∨ text r1 = text r2 →
  get_prompt slug project_slug version e1 s = get_prompt slug project_slug version e2 s.
Proof.
  intros Hc H1 H2 Hst H200 Hbody.
  rewrite (get_prompt_status e1 s _ _ _ _ _ _ Hc H1) by done.
  rewrite (get_prompt_status e2 s _ _ _ _ _ _ Hc H2) by congruence.
  rewrite <- Hst. destruct Hbody as [-> | [-> | [-> | ->]]]; try done.
Qed.

Lemma get_prompt_ignores_body_witness :
  get_prompt "research-manager" "agents-lextenso" None
    (answering (inr (plain 404 "not here"))) example_state
  = get_prompt "research-manager" "agents-lextenso" None
      (answering (inr {| status_code := 404; text := "{}"; json := inr (PDict ∅) |}))
      example_state.
Proof.
  apply (get_prompt_ignores_body
           (answering (inr (plain 404 "not here")))
           (answering (inr {| status_code := 404; text := "{}"; json := inr (PDict ∅) |}))
           example_state "https://vault.example" "pk_test"
           "research-manager" "agents-lextenso" None
           (plain 404 "not here")
           {| status_code := 404; text := "{}"; json := inr (PDict ∅) |}
           example_state_configured eq_refl eq_refl eq_refl);
    [done | right; right; by left].
Defined.

(** ** Telling the errors apart *)

(** X13. The six errors the module raises have pairwise different message
    texts, whatever the slug, project, status, body and cause are, so a
    caller can tell them apart by message; by class it cannot: the
    not-configured, invalid-key, access-denied and not-found errors are all
    [ValueError], and the API and network errors are both plain
    [Exception]. *)
Theorem error_messages_distinct (slug project_slug : string) (status : Z)
    (body : string) (cause : pyexn) :
  NoDup [exn_str NotConfigured; exn_str InvalidCredentials; exn_str AccessDenied;
         exn_str (NotFound slug project_slug); exn_str (ApiError status body);
         exn_str (NetworkError cause)]
  ∧ exn_class NotConfigured = ValueError
  ∧ exn_class InvalidCredentials = ValueError
  ∧ exn_class AccessDenied = ValueError
  ∧ exn_class (NotFound slug project_slug) = ValueError
  ∧ exn_class (ApiError status body) = Exception
  ∧ exn_class (NetworkError cause) = Exception.
Proof.
  split; [|done].
  cbn [exn_str NotConfigured InvalidCredentials AccessDenied NotFound ApiError
         NetworkError new_exn].
  rewrite !str_app_cons, !str_app_nil.
  repeat (apply NoDup_cons; split;
          [rewrite ?elem_of_cons, elem_of_nil; intros Hin;
           repeat (destruct Hin as [Hin|Hin]; [discriminate Hin|]); exact Hin|]).
  apply NoDup_nil_2.
Qed.

(** ** Any sequence of calls *)

Lemma dotted_config (e : env) (s : state) (n m : string) :
  _config (snd (dotted n m e s)) = _config s.
Proof.
  destruct (dotted_state e s n m) as [-> | ->]; [done|].
  by destruct (get_prompt_state e s (replace "_" "-" m) (replace "_" "-" n) None)
    as [-> | [req ->]].
Qed.

Lemma fetch_config (e : env) (s : state) (c : call) :
  (∀ b k, c ≠ CallConfigure b k) → _config (after_call e s c) = _config s.
Proof.
  intros Hc. destruct c as [b k|slug p v|n m]; cbn [after_call].
  - by destruct (Hc b k).
  - unfold PromptVaultModule.get_prompt.
    by destruct (get_prompt_state e s slug p v) as [-> | [req ->]].
  - apply dotted_config.
Qed.

Lemma config_after_calls_from (e : env) (calls : list call) (s : state) :
  _config (after_calls e calls s)
  = match last_configure calls with
    | Some (base_url, api_key) =>
        <["api_key" := Some api_key]>
          (<["base_url" := Some (rstrip "/" base_url)]> (_config s))
    | None => _config s
    end.
Proof.
  revert s. induction calls as [|c rest IH]; intros s; [done|].
  change (after_calls e (c :: rest) s) with (after_calls e rest (after_call e s c)).
  rewrite IH. cbn [last_configure].
  destruct (last_configure rest) as [[b k]|].
  - destruct c as [b' k'|slug p v|n m].
    + cbn [after_call]. unfold PromptVaultModule.configure.
      rewrite configure_run. cbn [snd _config]. apply config_overwrite.
    + by rewrite fetch_config.
    + by rewrite fetch_config.
  - destruct c as [b' k'|slug p v|n m].
    + reflexivity.
    + by rewrite fetch_config.
    + by rewrite fetch_config.
Qed.

(** X14. Through any sequence of [configure] calls, fetches and dotted
    accesses, made from any state and whatever each call returned or raised,
    the settings in force are those of the last [configure] call of the
    sequence alone, and the ones found at the start if there was none:
    fetching never alters them. *)
Theorem config_after_calls (e : env) (calls : list call) (s : state) :
  _config (after_calls e calls s)
  = match last_configure calls with
    | Some (base_url, api_key) => _config (snd (configure base_url api_key e s))
    | None => _config s
    end.
Proof.
  rewrite config_after_calls_from.
  by destruct (last_configure calls) as [[b k]|].
Qed.

Example config_after_calls_example :
  _config (after_calls (answering (inr (plain 500 "down")))
             [CallConfigure "https://old.example/" "pk_old";
              CallGetPrompt "research-manager" "agents-lextenso" None;
              CallConfigure "https://vault.example/" "pk_test";
              CallDotted "agents_lextenso" "research_manager"]
             initial_state)
  = _config example_state.
Proof. by vm_compute. Qed.

Lemma after_call_log (e : env) (s : state) (c : call) :
  ∃ more, sent (after_call e s c) = sent s ++ more
          ∧ (length more ≤ fetches [c])%nat.
Proof.
  destruct c as [b k|slug p v|n m]; cbn [after_call fetches].
  - exists []. unfold PromptVaultModule.configure. rewrite configure_run.
    cbn [snd sent]. by rewrite app_nil_r.
  - unfold PromptVaultModule.get_prompt.
    destruct (get_prompt_state e s slug p v) as [-> | [req ->]].
    + exists []. rewrite app_nil_r. split; [done|simpl; lia].
    + by exists [req].
  - destruct (dotted_state e s n m) as [-> | ->].
    + exists []. rewrite app_nil_r. split; [done|simpl; lia].
    + destruct (get_prompt_state e s (replace "_" "-" m) (replace "_" "-" n) None)
        as [-> | [req ->]].
      * exists []. rewrite app_nil_r. split; [done|simpl; lia].
      * by exists [req].
Qed.

(** X15. Through any sequence of calls the request log only grows at its
    end, and by at most one call per fetch or dotted access: [configure]
    never touches the network, and nothing is retried. *)
Theorem requests_bounded_by_fetches (e : env) (calls : list call) (s : state) :
  ∃ more, sent (after_calls e calls s) = sent s ++ more
          ∧ (length more ≤ fetches calls)%nat.
Proof.
  revert s. induction calls as [|c rest IH]; intros s.
  - exists []. by rewrite app_nil_r.
  - change (after_calls e (c :: rest) s) with (after_calls e rest (after_call e s c)).
    destruct (IH (after_call e s c)) as (more2 & Hsent2 & Hlen2).
    destruct (after_call_log e s c) as (more1 & Hsent1 & Hlen1).
    exists (more1 ++ more2). rewrite Hsent2, Hsent1, app_assoc.
    split; [done|]. rewrite length_app.
    assert (fetches (c :: rest) = (fetches [c] + fetches rest)%nat) as ->
      by (by destruct c).
    lia.
Qed.

(** X16. In every state a program can reach from a fresh import by
    [configure] calls, fetches and dotted accesses, both keys of [_config]
    are present, so a fetch has exactly two courses: it stops at the
    not-configured guard and leaves the state alone, or both settings are in
    place, the stored URL does not end in a slash, and one call is appended
    to the log.  The [KeyError] of a missing [_config] entry never shows. *)
Theorem reachable_fetch_guard_or_call (e : env) (calls : list call)
    (slug project_slug : string) (version : option Z) :
  get_prompt slug project_slug version e (after_calls e calls initial_state)
  = (Raise NotConfigured, after_calls e calls initial_state)
  ∨ ∃ base_url api_key,
      configured (after_calls e calls initial_state) base_url api_key
      ∧ ¬ ends_with "/" base_url
      ∧ sent (snd (get_prompt slug project_slug version e
                     (after_calls e calls initial_state)))
        = sent (after_calls e calls initial_state)
          ++ [the_request base_url api_key slug project_slug version].
Proof.
  pose proof (config_after_calls_from e calls initial_state) as Hcfg.
  destruct (last_configure calls) as [[b k]|].
  - assert (Hb : _config (after_calls e calls initial_state) !! "base_url"
                 = Some (Some (rstrip "/" b))).
    { rewrite Hcfg. rewrite lookup_insert_ne by done. apply lookup_insert_eq. }
    assert (Hk : _config (after_calls e calls initial_state) !! "api_key"
                 = Some (Some k)).
    { rewrite Hcfg. apply lookup_insert_eq. }
    destruct (decide (rstrip "/" b = "")) as [Hbe|Hbne].
    { left. apply (get_prompt_unconfigured e _ _ _ _ _ _ Hb Hk). by rewrite Hbe. }
    destruct (decide (k = "")) as [->|Hkne].
    { left. apply (get_prompt_unconfigured e _ _ _ _ _ _ Hb Hk).
      apply andb_false_r. }
    right. exists (rstrip "/" b), k.
    assert (Hc : configured (after_calls e calls initial_state) (rstrip "/" b) k)
      by done.
    split; [exact Hc|]. split; [apply rstrip_slash_tight|].
    by rewrite (get_prompt_configured e _ _ _ _ _ _ Hc).
  - left. apply (get_prompt_unconfigured e _ None None); [| |done].
    + by rewrite Hcfg.
    + by rewrite Hcfg.
Qed.


